(** * OptimizerBase: the optimizer wrapper of videoanalyst

    A shallow embedding of [videoanalyst/optim/optimizer/optimizer_base.py]
    and the properties of its hyper-parameter handling, its lazily built
    learning-rate policy and multiplier, and its delegation to the
    underlying torch optimizer.

    Python dicts that are only looked up by key are [gmap string _]; the
    dict given to [set_hps] is iterated, so it keeps its insertion order as
    an association list.  The hyper-parameter dict is shared by reference
    with the class attribute, so it lives in a store of dict objects and the
    instance holds its location.  Everything the module imports (the policy
    and multiplier builders, [schedule_lr], the torch optimizer and model) is
    a parameter of the development: an arbitrary function from the history
    of external calls to the result of the next one. *)

From stdpp Require Import gmap strings list fin_maps.

#[local] Set Warnings "-register-all".
Open Scope Z_scope.
Open Scope string_scope.
Open Scope list_scope.

(** ** Values *)

(** Configuration data as a hyper-parameter can hold it.  Numbers are never
    interpreted by this module, a float is kept as its bit pattern. *)
Inductive value : Type :=
| VNone
| VBool (b : bool)
| VInt (z : Z)
| VFloat (bits : Z)
| VStr (s : string)
| VList (xs : list value)
| VDict (kvs : list (string * value)).

(** The exceptions this module can see. *)
Inductive exn : Type :=
| KeyError
| TypeError
| AttributeError
| OtherError (name : string).

(** A call either returns or raises. *)
Inductive outcome (A : Type) : Type :=
| Return (a : A)
| Raise (e : exn).
Arguments Return {A} a.
Arguments Raise {A} e.

(** [len(v)]: defined on strings, lists and dicts, a [TypeError] otherwise. *)
Definition py_len (v : value) : outcome nat :=
  match v with
  | VStr s => Return (String.length s)
  | VList xs => Return (length xs)
  | VDict kvs => Return (length kvs)
  | _ => Raise TypeError
  end.

(** ** Dicts in iteration order *)

(** A dict whose iteration order matters: its items, oldest first. *)
Definition pydict : Type := list (string * value).

(** [for key in d] visits the keys in insertion order. *)
Definition dict_keys (d : pydict) : list string := map fst d.

(** [d[key]], [None] standing for the [KeyError]. *)
Fixpoint dict_get (d : pydict) (key : string) : option value :=
  match d with
  | [] => None
  | (k, v) :: d' => if bool_decide (k = key) then Some v else dict_get d' key
  end.

(** ** Objects, references and external calls *)

(** A location in the store of shared dict objects. *)
Definition loc : Type := positive.

(** An opaque reference to an object owned by the imported libraries: a
    policy, a multiplier, a torch module or optimizer, a learning rate, a
    parameter group list. *)
Definition Obj : Type := positive.

(** The calls that leave this module.  A module-level function keeps its
    name; a method is named after the class of its receiver. *)
Inductive call : Type :=
| build_lr_policy (cfg : value)
| build_lr_multiplier (cfg : value)
| schedule_lr (optimizer : option Obj) (lr : Obj)
| LrPolicy_get_lr (policy : Obj) (epoch iteration : Z)
| LrMultiplier_multiply_lr (multiplier : Obj) (optimizer : option Obj)
| LrMultiplier_divide_into_param_groups (multiplier : Obj) (model : option Obj)
| Module_parameters (model : Obj)
| Optimizer_zero_grad (optimizer : Obj)
| Optimizer_step (optimizer : Obj)
| Optimizer_state_dict (optimizer : Obj).

(** One external call with what came back. *)
Definition event : Type := call * outcome Obj.

(** The imported collaborators: what a call answers may depend on every
    call made before it (that is how a learning rate written by
    [schedule_lr] shows up in a later [state_dict]). *)
Class Externals : Type := extern : list event → call → outcome Obj.

(** ** The wrapper and the machine it runs on *)

(** The class object: its attribute [default_hyper_params] is a reference
    to one dict, created when the class body runs. *)
Record class : Type := Class_ { default_hyper_params : loc }.

(** The instance attributes set by [__init__]. *)
Record OptimizerBase : Type := Instance_ {
  _hyper_params : loc;
  _state : gmap string Obj;
  _cfg : value;
  _model : option Obj;
  _optimizer : option Obj
}.

(** The receiver of the running method, the store of shared dicts and the
    history of external calls. *)
Record machine : Type := Machine {
  self : OptimizerBase;
  dicts : gmap loc (gmap string value);
  trace : list event
}.

(** The dict a reference points to. *)
Definition deref (m : machine) (l : loc) : gmap string value := dicts m !!! l.

(** The contents of [self._hyper_params]. *)
Definition hyper_params (m : machine) : gmap string value :=
  deref m (_hyper_params (self m)).

(** Another receiver on the same store. *)
Definition with_self (o : OptimizerBase) (m : machine) : machine :=
  {| self := o; dicts := dicts m; trace := trace m |}.

(** ** Methods as state transformers that may raise *)

(** A raised exception keeps the writes made before it. *)
Definition M (A : Type) : Type := machine → outcome A * machine.

Global Instance M_ret : MRet M := λ A a m, (Return a, m).

Global Instance M_bind : MBind M := λ A B f c m,
  match c m with
  | (Return a, m') => f a m'
  | (Raise e, m') => (Raise e, m')
  end.

Definition raise {A : Type} (e : exn) : M A := λ m, (Raise e, m).

(** [if c: body] *)
Definition when (c : bool) (body : M unit) : M unit :=
  if c then body else mret tt.

(** [for x in xs: body] *)
Fixpoint for_each {A : Type} (xs : list A) (body : A → M unit) : M unit :=
  match xs with
  | [] => mret tt
  | x :: xs' => body x;; for_each xs' body
  end.

(** [self.attr] *)
Definition attr {A : Type} (f : OptimizerBase → A) : M A :=
  λ m, (Return (f (self m)), m).

(** [len(v)] as a step of a method. *)
Definition len (v : value) : M nat := λ m, (py_len v, m).

(** [key in self._hyper_params] *)
Definition hyper_params_contains (key : string) : M bool :=
  λ m, (Return (bool_decide (key ∈ dom (hyper_params m))), m).

(** [self._hyper_params[key]] *)
Definition hyper_params_getitem (key : string) : M value :=
  λ m, match hyper_params m !! key with
       | Some v => (Return v, m)
       | None => (Raise KeyError, m)
       end.

(** [self._hyper_params[key] = v]: a write through the reference. *)
Definition hyper_params_setitem (key : string) (v : value) : M unit :=
  λ m, (Return tt,
        {| self := self m;
           dicts := <[_hyper_params (self m) := <[key := v]> (hyper_params m)]> (dicts m);
           trace := trace m |}).

(** [hps[key]] *)
Definition getitem (d : pydict) (key : string) : M value :=
  match dict_get d key with
  | Some v => mret v
  | None => raise KeyError
  end.

(** [key in self._state] *)
Definition state_contains (key : string) : M bool :=
  λ m, (Return (bool_decide (key ∈ dom (_state (self m)))), m).

(** [self._state[key]] *)
Definition state_getitem (key : string) : M Obj :=
  λ m, match _state (self m) !! key with
       | Some o => (Return o, m)
       | None => (Raise KeyError, m)
       end.

(** [self._state[key] = o] *)
Definition state_setitem (key : string) (o : Obj) : M unit :=
  λ m, (Return tt,
        {| self := {| _hyper_params := _hyper_params (self m);
                      _state := <[key := o]> (_state (self m));
                      _cfg := _cfg (self m);
                      _model := _model (self m);
                      _optimizer := _optimizer (self m) |};
           dicts := dicts m;
           trace := trace m |}).

(** [self._model = model] *)
Definition model_assign (model : option Obj) : M unit :=
  λ m, (Return tt,
        {| self := {| _hyper_params := _hyper_params (self m);
                      _state := _state (self m);
                      _cfg := _cfg (self m);
                      _model := model;
                      _optimizer := _optimizer (self m) |};
           dicts := dicts m;
           trace := trace m |}).

Section Methods.
Context {collaborators : Externals}.

(** A call of an imported function or of a method of an external object:
    it is answered from the history and appended to it. *)
Definition call_extern (c : call) : M Obj :=
  λ m, let r := extern (trace m) c in
       (r, {| self := self m; dicts := dicts m; trace := trace m ++ [(c, r)] |}).

(** [receiver.method(...)]: [None] has no such attribute. *)
Definition method (receiver : option Obj) (mk : Obj → call) : M Obj :=
  match receiver with
  | Some o => call_extern (mk o)
  | None => raise AttributeError
  end.

(** The class body, run once when the module is imported:
    [default_hyper_params = dict(lr_policy=[], lr_multiplier=[])]
    allocates the one dict every instance will refer to. *)
Definition class_body (d : gmap loc (gmap string value))
  : class * gmap loc (gmap string value) :=
  let l := fresh (dom d) in
  (Class_ l,
   <[l := <["lr_policy" := VList []]> (<["lr_multiplier" := VList []]> ∅)]> d).

(** [__init__]: the first assignment copies the reference, not the dict. *)
Definition __init__ (cls : class) (cfg : value) : OptimizerBase :=
  {| _hyper_params := default_hyper_params cls;
     _state := ∅;
     _cfg := cfg;
     _model := None;
     _optimizer := None |}.

(** [get_hps] returns the dict itself, that is, its reference. *)
Definition get_hps : M loc := attr _hyper_params.

(** One turn of the loop of [set_hps]. *)
Definition set_hps_body (hps : pydict) (key : string) : M unit :=
  known ← hyper_params_contains key;
  when (negb known) (raise KeyError);;
  v ← getitem hps key;
  hyper_params_setitem key v.

Definition set_hps (hps : pydict) : M unit :=
  for_each (dict_keys hps) (set_hps_body hps).

Definition update_params : M unit :=
  lr_policy_cfg ← hyper_params_getitem "lr_policy";
  n ← len lr_policy_cfg;
  when (bool_decide (0 < n)%nat) (
    lr_policy ← call_extern (build_lr_policy lr_policy_cfg);
    state_setitem "lr_policy" lr_policy);;
  lr_multiplier_cfg ← hyper_params_getitem "lr_multiplier";
  n ← len lr_multiplier_cfg;
  when (bool_decide (0 < n)%nat) (
    lr_multiplier ← call_extern (build_lr_multiplier lr_multiplier_cfg);
    state_setitem "lr_multiplier" lr_multiplier).

Definition set_model (model : Obj) : M unit := model_assign (Some model).

Definition build_optimizer : M unit :=
  has_multiplier ← state_contains "lr_multiplier";
  params ← (if has_multiplier : bool then
              lr_multiplier ← state_getitem "lr_multiplier";
              model ← attr _model;
              call_extern (LrMultiplier_divide_into_param_groups lr_multiplier model)
            else
              model ← attr _model;
              method model Module_parameters);
  state_setitem "params" params.

Definition zero_grad : M unit :=
  optimizer ← attr _optimizer;
  method optimizer Optimizer_zero_grad;;
  mret tt.

Definition step : M unit :=
  optimizer ← attr _optimizer;
  method optimizer Optimizer_step;;
  mret tt.

Definition state_dict : M Obj :=
  optimizer ← attr _optimizer;
  method optimizer Optimizer_state_dict.

Definition schedule (epoch iteration : Z) : M (gmap string Obj) :=
  let schedule_info : gmap string Obj := ∅ in
  has_policy ← state_contains "lr_policy";
  schedule_info ← (if has_policy : bool then
                     lr_policy ← state_getitem "lr_policy";
                     lr ← call_extern (LrPolicy_get_lr lr_policy epoch iteration);
                     optimizer ← attr _optimizer;
                     call_extern (schedule_lr optimizer lr);;
                     mret (<["lr" := lr]> schedule_info)
                   else mret schedule_info);
  has_multiplier ← state_contains "lr_multiplier";
  when has_multiplier (
    lr_multiplier ← state_getitem "lr_multiplier";
    optimizer ← attr _optimizer;
    call_extern (LrMultiplier_multiply_lr lr_multiplier optimizer);;
    mret tt);;
  mret schedule_info.

End Methods.

(** ** Reading a run *)

(** What a method leaves behind, whether it returned or raised. *)
Definition after {A : Type} (c : M A) (m : machine) : machine := snd (c m).

(** The outcome of a method. *)
Definition result {A : Type} (c : M A) (m : machine) : outcome A := fst (c m).

(** ** Sample collaborators and machines *)

(** Collaborators that always return, each time a new object: the object
    numbered by the length of the history. *)
Definition sample_externals : Externals :=
  λ history _, Return (Pos.of_succ_nat (length history)).

(** The module just imported and one wrapper constructed on it. *)
Definition sample_class : class := fst (class_body ∅).

Definition sample_machine : machine :=
  {| self := __init__ sample_class (VDict []);
     dicts := snd (class_body ∅);
     trace := [] |}.

(** A wrapper as a subclass leaves it, with a torch optimizer (object 9)
    set, and with a model (object 5) registered. *)
Definition sample_machine_with_optimizer : machine :=
  after (set_model 5%positive)
    {| self := {| _hyper_params := default_hyper_params sample_class;
                  _state := ∅;
                  _cfg := VDict [];
                  _model := None;
                  _optimizer := Some 9%positive |};
       dicts := snd (class_body ∅);
       trace := [] |}.

(** Dicts a caller may hand to [set_hps]. *)
Definition policy_hps : pydict := [("lr_policy", VList [VStr "LinearLR"])].

Definition cleared_hps : pydict := [("lr_policy", VList [])].

Definition multiplier_hps : pydict := [("lr_multiplier", VList [VStr "backbone"])].

Definition both_hps : pydict :=
  [("lr_policy", VList [VStr "LinearLR"]); ("lr_multiplier", VList [VStr "backbone"])].

Definition mixed_hps : pydict :=
  [("lr_policy", VList [VStr "LinearLR"]); ("momentum", VInt 1)].

(** The wrapper configured with a policy, and [update_params()] called. *)
Definition machine_with_policy : machine :=
  after (update_params (collaborators := sample_externals))
    (after (set_hps policy_hps) sample_machine_with_optimizer).

(** Then the policy list is emptied again. *)
Definition machine_with_stale_policy : machine :=
  after (set_hps cleared_hps) machine_with_policy.

(** The wrapper configured with a multiplier only. *)
Definition machine_with_multiplier : machine :=
  after (update_params (collaborators := sample_externals))
    (after (set_hps multiplier_hps) sample_machine_with_optimizer).

(** The wrapper configured with both. *)
Definition machine_with_both : machine :=
  after (update_params (collaborators := sample_externals))
    (after (set_hps both_hps) sample_machine_with_optimizer).

(** Collaborators of which one fails: it raises a [ValueError], the
    others return as [sample_externals] do. *)
Definition policy_builder_failing : Externals :=
  λ history c,
    match c with
    | build_lr_policy _ => Raise (OtherError "ValueError")
    | _ => Return (Pos.of_succ_nat (length history))
    end.

Definition multiplier_builder_failing : Externals :=
  λ history c,
    match c with
    | build_lr_multiplier _ => Raise (OtherError "ValueError")
    | _ => Return (Pos.of_succ_nat (length history))
    end.

Definition get_lr_failing : Externals :=
  λ history c,
    match c with
    | LrPolicy_get_lr _ _ _ => Raise (OtherError "ValueError")
    | _ => Return (Pos.of_succ_nat (length history))
    end.

Definition schedule_lr_failing : Externals :=
  λ history c,
    match c with
    | schedule_lr _ _ => Raise (OtherError "ValueError")
    | _ => Return (Pos.of_succ_nat (length history))
    end.

(** A second class with a defaults dict of its own, and a wrapper of the
    first class on the store that holds both dicts. *)
Definition second_class : class := fst (class_body (snd (class_body ∅))).

Definition two_class_machine : machine :=
  {| self := __init__ sample_class VNone;
     dicts := snd (class_body (snd (class_body ∅)));
     trace := [] |}.

(** A wrapper of a subclass whose [default_hyper_params] has no
    ["lr_policy"]. *)
Definition bare_machine : machine :=
  {| self := __init__ (Class_ 1%positive) VNone;
     dicts := <[1%positive := <["momentum" := VInt 1]> ∅]> ∅;
     trace := [] |}.

(** A dict that sets the policy to a number. *)
Definition number_hps : pydict := [("lr_policy", VInt 5)].

(** ** Hyper-parameters: [get_hps] and [set_hps] *)

Section HyperParameters.

Implicit Types (m : machine) (hps : pydict) (key k : string) (v : value).

Lemma get_hps_reference m : get_hps m = (Return (_hyper_params (self m)), m).
Proof. reflexivity. Qed.

Lemma hyper_params_after_setitem m key v :
  hyper_params (after (hyper_params_setitem key v) m) = <[key := v]> (hyper_params m).
Proof.
  unfold after, hyper_params, deref; simpl.
  apply lookup_total_insert_eq.
Qed.

Lemma dict_get_is_Some hps key : key ∈ dict_keys hps → is_Some (dict_get hps key).
Proof.
  induction hps as [|[k v] hps IH]; simpl.
  - intros H; by apply elem_of_nil in H.
  - intros H. case_bool_decide; [by eexists|].
    apply elem_of_cons in H as [->|H]; [done|auto].
Qed.

Lemma set_hps_body_unknown hps key m :
  key ∉ dom (hyper_params m) → set_hps_body hps key m = (Raise KeyError, m).
Proof.
  intros H. unfold set_hps_body, mbind, M_bind, hyper_params_contains.
  by rewrite bool_decide_eq_false_2.
Qed.

Lemma set_hps_body_known hps key v m :
  key ∈ dom (hyper_params m) → dict_get hps key = Some v →
  set_hps_body hps key m = hyper_params_setitem key v m.
Proof.
  intros H Hv. unfold set_hps_body, mbind, M_bind, hyper_params_contains, getitem.
  rewrite bool_decide_eq_true_2 by done. simpl. by rewrite Hv.
Qed.

Lemma for_each_app {A : Type} (xs ys : list A) (body : A → M unit) m :
  for_each (xs ++ ys) body m =
  match for_each xs body m with
  | (Return _, m') => for_each ys body m'
  | (Raise e, m') => (Raise e, m')
  end.
Proof.
  revert m; induction xs as [|x xs IH]; intros m; simpl; [done|].
  unfold mbind, M_bind. destruct (body x m) as [[[]|e] m1]; [apply IH|done].
Qed.

(** A run of the loop over keys that are all known: it returns, and has
    written [hps[k]] for each of them and nothing else. *)
Lemma for_each_known hps (ks : list string) m :
  (∀ k, k ∈ ks → k ∈ dom (hyper_params m) ∧ k ∈ dict_keys hps) →
  ∃ m', for_each ks (set_hps_body hps) m = (Return tt, m') ∧
        self m' = self m ∧ trace m' = trace m ∧
        (∀ l, l ≠ _hyper_params (self m) → dicts m' !! l = dicts m !! l) ∧
        dom (hyper_params m') = dom (hyper_params m) ∧
        (∀ k, hyper_params m' !! k =
              if decide (k ∈ ks) then dict_get hps k else hyper_params m !! k) ∧
        (ks = [] → m' = m).
Proof.
  revert m; induction ks as [|key ks IH]; intros m Hks.
  - exists m; simpl. by repeat split.
  - destruct (Hks key) as [Hdom Hin]; [left|].
    destruct (dict_get_is_Some hps key Hin) as [v Hv].
    pose (m1 := after (hyper_params_setitem key v) m).
    assert (Hhp1 : hyper_params m1 = <[key := v]> (hyper_params m))
      by apply hyper_params_after_setitem.
    assert (Hdom1 : dom (hyper_params m1) = dom (hyper_params m)).
    { rewrite Hhp1. apply dom_insert_lookup_L. by apply elem_of_dom. }
    destruct (IH m1) as (m' & Hrun & Hself & Htr & Hother & Hdom' & Hlook & _).
    { intros k Hk. rewrite Hdom1. apply Hks. by right. }
    exists m'. simpl. unfold mbind at 1, M_bind at 1.
    rewrite (set_hps_body_known hps key v m Hdom Hv).
    change (hyper_params_setitem key v m) with (Return tt, m1).
    repeat split; try done.
    + intros l Hl. rewrite Hother by done. simpl. by rewrite lookup_insert_ne.
    + congruence.
    + intros k. rewrite Hlook, Hhp1.
      destruct (decide (k ∈ ks)) as [Hk|Hk].
      * rewrite decide_True; [done|by right].
      * destruct (decide (k = key)) as [->|Hne].
        -- rewrite decide_True by left. by rewrite lookup_insert_eq.
        -- rewrite decide_False.
           ++ by rewrite lookup_insert_ne.
           ++ intros [?|?]%elem_of_cons; done.
Qed.

(** The keys up to the first one that is not a hyper-parameter. *)
Lemma first_unknown_key (known_keys : gset string) (ks : list string) :
  (∃ k, k ∈ ks ∧ k ∉ known_keys) →
  ∃ known key rest,
    ks = known ++ (key :: rest) ∧ (∀ k, k ∈ known → k ∈ known_keys) ∧ key ∉ known_keys.
Proof.
  induction ks as [|k0 ks IH]; intros (k & Hin & Hk).
  - by apply elem_of_nil in Hin.
  - destruct (decide (k0 ∈ known_keys)) as [H0|H0].
    + apply elem_of_cons in Hin as [->|Hin]; [done|].
      destruct IH as (known & key & rest & -> & Hknown & Hkey); [by exists k|].
      exists (k0 :: known), key, rest. repeat split; [|done].
      intros k' [->|?]%elem_of_cons; auto.
    + exists [], k0, ks. repeat split; [|done].
      intros k' Hk'. by apply elem_of_nil in Hk'.
Qed.

(** [set_hps] when every key is known. *)
Lemma set_hps_all_known m hps :
  (∀ k, k ∈ dict_keys hps → k ∈ dom (hyper_params m)) →
  ∃ m', set_hps hps m = (Return tt, m') ∧
        self m' = self m ∧ trace m' = trace m ∧
        ∀ k, k ∈ dict_keys hps → hyper_params m' !! k = dict_get hps k.
Proof.
  intros Hall.
  destruct (for_each_known hps (dict_keys hps) m)
    as (m' & Hrun & Hself & Htr & _ & _ & Hlook & _); [by auto|].
  exists m'. repeat split; try done.
  intros k Hk. by rewrite Hlook, decide_True.
Qed.

(** [set_hps] when some key is unknown: the run up to the first one. *)
Lemma set_hps_some_unknown m hps :
  (∃ k, k ∈ dict_keys hps ∧ k ∉ dom (hyper_params m)) →
  ∃ known key rest m',
    dict_keys hps = known ++ (key :: rest) ∧
    (∀ k, k ∈ known → k ∈ dom (hyper_params m)) ∧
    (key ∉ dom (hyper_params m)) ∧
    set_hps hps m = (Raise KeyError, m') ∧
    self m' = self m ∧ trace m' = trace m ∧
    (∀ l, l ≠ _hyper_params (self m) → dicts m' !! l = dicts m !! l) ∧
    (∀ k, hyper_params m' !! k =
          if decide (k ∈ known) then dict_get hps k else hyper_params m !! k) ∧
    (known = [] → m' = m).
Proof.
  intros Hex.
  destruct (first_unknown_key _ _ Hex) as (known & key & rest & Hks & Hknown & Hkey).
  destruct (for_each_known hps known m)
    as (m1 & Hrun & Hself & Htr & Hother & Hdom & Hlook & Hnil).
  { intros k Hk. split; [by auto|]. rewrite Hks. apply elem_of_app. by left. }
  exists known, key, rest, m1. repeat split; try done.
  unfold set_hps. rewrite Hks, for_each_app, Hrun. simpl.
  unfold mbind, M_bind. rewrite set_hps_body_unknown; [done|by rewrite Hdom].
Qed.

(** Either every key of [hps] is known or one is not. *)
Lemma keys_known_or_not m hps :
  (∀ k, k ∈ dict_keys hps → k ∈ dom (hyper_params m)) ∨
  (∃ k, k ∈ dict_keys hps ∧ k ∉ dom (hyper_params m)).
Proof.
  destruct (decide (Forall (λ k, k ∈ dom (hyper_params m)) (dict_keys hps)))
    as [Hall|Hex].
  - left. by apply Forall_forall.
  - right. apply not_Forall_Exists in Hex; [|apply _].
    apply Exists_exists in Hex. naive_solver.
Qed.

(** X1: [set_hps] never adds or removes a key, whether it returns or
    raises: the recognised keys stay those of the defaults. *)
Lemma set_hps_keeps_keys m hps :
  dom (hyper_params (after (set_hps hps) m)) = dom (hyper_params m).
Proof.
  destruct (keys_known_or_not m hps)
    as [Hall|(known & key & rest & Hks & Hknown & Hkey)%first_unknown_key].
  - destruct (for_each_known hps (dict_keys hps) m)
      as (m' & Hrun & _ & _ & _ & Hdom & _); [by auto|].
    unfold after, set_hps. by rewrite Hrun.
  - destruct (for_each_known hps known m) as (m1 & Hrun & _ & _ & _ & Hdom & _).
    { intros k Hk. split; [by auto|]. rewrite Hks. apply elem_of_app. by left. }
    unfold after, set_hps. rewrite Hks, for_each_app, Hrun. simpl.
    unfold mbind, M_bind. rewrite set_hps_body_unknown; [done|by rewrite Hdom].
Qed.

(** A wrapper constructed right after the class body ran reads the
    defaults: both lists empty. *)
Lemma init_reads_defaults (d : gmap loc (gmap string value)) (cfg : value)
    (t : list event) :
  hyper_params (Machine (__init__ (fst (class_body d)) cfg) (snd (class_body d)) t)
  = <["lr_policy" := VList []]> (<["lr_multiplier" := VList []]> ∅).
Proof.
  unfold hyper_params, deref, class_body; simpl.
  apply lookup_total_insert_eq.
Qed.

(** C2: when every key of [hps] is a key of the hyper-parameter dict,
    [set_hps(hps)] returns and the dict then maps each key of [hps] to
    [hps[key]]; it returns exactly when all keys are such keys, and
    raises [KeyError] exactly when one is not. *)
Theorem set_hps_known_keys_update m hps :
  (result (set_hps hps) m = Return tt ↔
     ∀ k, k ∈ dict_keys hps → k ∈ dom (hyper_params m)) ∧
  (result (set_hps hps) m = Raise KeyError ↔
     ∃ k, k ∈ dict_keys hps ∧ k ∉ dom (hyper_params m)) ∧
  ((∀ k, k ∈ dict_keys hps → k ∈ dom (hyper_params m)) →
     ∀ k, k ∈ dict_keys hps →
       is_Some (dict_get hps k) ∧
       hyper_params (after (set_hps hps) m) !! k = dict_get hps k).
Proof.
  assert (Hbad : (∃ k, k ∈ dict_keys hps ∧ k ∉ dom (hyper_params m)) →
                 result (set_hps hps) m = Raise KeyError).
  { intros (? & ? & ? & m1 & _ & _ & _ & Hrun & _)%set_hps_some_unknown.
    unfold result. by rewrite Hrun. }
  assert (Hgood : (∀ k, k ∈ dict_keys hps → k ∈ dom (hyper_params m)) →
                  result (set_hps hps) m = Return tt).
  { intros (m' & Hrun & _)%set_hps_all_known. unfold result. by rewrite Hrun. }
  split; [|split].
  - split; [|done]. intros Hret.
    destruct (keys_known_or_not m hps) as [?|Hex%Hbad]; [done|congruence].
  - split; [|done]. intros Hraise.
    destruct (keys_known_or_not m hps) as [Hall%Hgood|?]; [congruence|done].
  - intros Hall k Hk. split; [by apply dict_get_is_Some|].
    destruct (set_hps_all_known m hps Hall) as (m' & Hrun & _ & _ & Hlook).
    unfold after. rewrite Hrun. by apply Hlook.
Qed.

(** C1, as the code has it: when some key of [hps] is not a key of the
    hyper-parameter dict, [set_hps(hps)] raises [KeyError]; by then it has
    written [hps[k]] for the keys [k] that come before the first such key,
    and nothing else; so the hyper-parameters are unchanged when no known
    key comes before it. *)
Theorem set_hps_unknown_key_raises m hps :
  (∃ k, k ∈ dict_keys hps ∧ k ∉ dom (hyper_params m)) →
  ∃ known key rest,
    dict_keys hps = known ++ (key :: rest) ∧
    (∀ k, k ∈ known → k ∈ dom (hyper_params m)) ∧
    (key ∉ dom (hyper_params m)) ∧
    result (set_hps hps) m = Raise KeyError ∧
    self (after (set_hps hps) m) = self m ∧
    trace (after (set_hps hps) m) = trace m ∧
    (∀ l, l ≠ _hyper_params (self m) →
          dicts (after (set_hps hps) m) !! l = dicts m !! l) ∧
    (∀ k, hyper_params (after (set_hps hps) m) !! k =
          if decide (k ∈ known) then dict_get hps k else hyper_params m !! k) ∧
    (known = [] → after (set_hps hps) m = m).
Proof.
  intros (known & key & rest & m' & Hks & Hknown & Hkey & Hrun
          & Hself & Htr & Hother & Hlook & Hnil)%set_hps_some_unknown.
  exists known, key, rest. unfold result, after. rewrite Hrun. simpl.
  split; [done|]. split; [done|]. split; [done|]. split; [done|].
  split; [done|]. split; [done|]. split; [done|]. split; [done|]. exact Hnil.
Qed.

(** C9: [__init__] stores the class attribute itself, so two instances
    of one class hold the same dict: after a [set_hps] on [A] that
    returned, [get_hps()] on [B] is the very dict of [A] and of the class,
    and it maps every key of [hps] to [hps[key]], whatever the defaults
    were. *)
Theorem set_hps_is_shared_between_instances
    (cls : class) (cfgA cfgB : value) (d : gmap loc (gmap string value))
    (t : list event) hps :
  result (set_hps hps) (Machine (__init__ cls cfgA) d t) = Return tt →
  result get_hps (with_self (__init__ cls cfgB)
                    (after (set_hps hps) (Machine (__init__ cls cfgA) d t)))
    = Return (default_hyper_params cls) ∧
  result get_hps (after (set_hps hps) (Machine (__init__ cls cfgA) d t))
    = Return (default_hyper_params cls) ∧
  ∀ k, k ∈ dict_keys hps →
    is_Some (dict_get hps k) ∧
    hyper_params (with_self (__init__ cls cfgB)
                    (after (set_hps hps) (Machine (__init__ cls cfgA) d t))) !! k
      = dict_get hps k.
Proof.
  intros Hret.
  destruct (keys_known_or_not (Machine (__init__ cls cfgA) d t) hps)
    as [Hall|(? & ? & ? & m1 & _ & _ & _ & Hrun & _)%set_hps_some_unknown].
  - destruct (set_hps_all_known _ hps Hall) as (m' & Hrun & Hself & _ & Hlook).
    unfold after. rewrite Hrun. simpl.
    repeat split.
    + unfold result, get_hps, attr. simpl. by rewrite Hself.
    + by apply dict_get_is_Some.
    + rewrite <- Hlook by done.
      unfold hyper_params, with_self. simpl. by rewrite Hself.
  - unfold result in Hret. by rewrite Hrun in Hret.
Qed.

End HyperParameters.

(** ** Methods that call the collaborators *)

Section Collaborators.
Context {collaborators : Externals}.

Implicit Types (m : machine) (key : string) (o : Obj) (c : call).

(** Unfolds the plumbing of a method body down to the machine. *)
Ltac step_through :=
  unfold mbind, M_bind, mret, M_ret, when, attr, len, raise, method,
    call_extern, state_contains, state_getitem, state_setitem,
    hyper_params_getitem; simpl.

Lemma state_contains_Some m key o :
  _state (self m) !! key = Some o →
  bool_decide (key ∈ dom (_state (self m))) = true.
Proof. intros H. apply bool_decide_eq_true_2, elem_of_dom. by eexists. Qed.

Lemma state_contains_None m key :
  _state (self m) !! key = None →
  bool_decide (key ∈ dom (_state (self m))) = false.
Proof. intros H. by apply bool_decide_eq_false_2, not_elem_of_dom. Qed.

(** *** [update_params] *)

(** C4, as the code has it: with both configuration lists empty,
    [update_params()] returns without calling a builder and changes
    nothing: the internal state has the keys ["lr_policy"] and
    ["lr_multiplier"] afterwards exactly when it had them before. *)
Theorem update_params_empty_configs_change_nothing m :
  hyper_params m !! "lr_policy" = Some (VList []) →
  hyper_params m !! "lr_multiplier" = Some (VList []) →
  update_params m = (Return tt, m).
Proof.
  intros Hp Hm. unfold update_params. step_through.
  rewrite Hp. simpl. by rewrite Hm.
Qed.

(** C3: when both hyper-parameters are lists and the builders return,
    [update_params()] returns; it has called [build_lr_policy] on the
    policy list and stored the object it got under ["lr_policy"] if and
    only if that list is non-empty, and likewise for
    [build_lr_multiplier] and ["lr_multiplier"]; it makes no other call,
    and an entry whose list is empty is left as it was. *)
Theorem update_params_builds_iff_nonempty m (lp lm : list value) :
  hyper_params m !! "lr_policy" = Some (VList lp) →
  hyper_params m !! "lr_multiplier" = Some (VList lm) →
  (∀ t, ∃ o, extern t (build_lr_policy (VList lp)) = Return o) →
  (∀ t, ∃ o, extern t (build_lr_multiplier (VList lm)) = Return o) →
  ∃ m' evs,
    update_params m = (Return tt, m') ∧
    trace m' = trace m ++ evs ∧
    (∀ c r, (c, r) ∈ evs →
       c = build_lr_policy (VList lp) ∨ c = build_lr_multiplier (VList lm)) ∧
    ((∃ o, (build_lr_policy (VList lp), Return o) ∈ evs ∧
           _state (self m') !! "lr_policy" = Some o) ↔ lp ≠ []) ∧
    ((∃ o, (build_lr_multiplier (VList lm), Return o) ∈ evs ∧
           _state (self m') !! "lr_multiplier" = Some o) ↔ lm ≠ []) ∧
    (lp = [] → _state (self m') !! "lr_policy" = _state (self m) !! "lr_policy") ∧
    (lm = [] →
       _state (self m') !! "lr_multiplier" = _state (self m) !! "lr_multiplier").
Proof.
  intros Hp Hm Hbp Hbm. unfold update_params. step_through.
  rewrite Hp. simpl.
  destruct lp as [|v lp], lm as [|w lm]; simpl.
  - rewrite Hm. simpl. exists m, []. rewrite app_nil_r.
    repeat split; try done.
    + intros c r Hin. by apply elem_of_nil in Hin.
    + intros (o & Hin & _). by apply elem_of_nil in Hin.
    + intros (o & Hin & _). by apply elem_of_nil in Hin.
  - rewrite Hm. simpl.
    destruct (Hbm (trace m)) as [q Hq]. rewrite Hq.
    eexists _, [_]. split; [reflexivity|]. simpl.
    repeat split; try done.
    + intros c r [= -> ->]%list_elem_of_singleton. by right.
    + intros (o & [=]%list_elem_of_singleton & _).
    + intros _. exists q. split; [by apply list_elem_of_singleton|].
      by rewrite lookup_insert_eq.
    + intros _. by rewrite lookup_insert_ne.
  - destruct (Hbp (trace m)) as [p Hp']. rewrite Hp'.
    unfold hyper_params, deref in *. simpl. rewrite Hm. simpl.
    eexists _, [_]. split; [reflexivity|]. simpl.
    repeat split; try done.
    + intros c r [= -> ->]%list_elem_of_singleton. by left.
    + intros _. exists p. split; [by apply list_elem_of_singleton|].
      by rewrite lookup_insert_eq.
    + intros (o & [=]%list_elem_of_singleton & _).
    + intros _. by rewrite lookup_insert_ne.
  - destruct (Hbp (trace m)) as [p Hp']. rewrite Hp'.
    unfold hyper_params, deref in *. simpl. rewrite Hm. simpl.
    destruct (Hbm (trace m ++ [(build_lr_policy (VList (v :: lp)), Return p)]))
      as [q Hq]. rewrite Hq.
    eexists _, [_; _]. split; [reflexivity|]. simpl.
    rewrite <- app_assoc. simpl.
    repeat split; try done.
    + intros c r [Heq|Heq%list_elem_of_singleton]%elem_of_cons;
        inversion Heq; auto.
    + intros _. exists p. split; [by left|].
      rewrite lookup_insert_ne by done. by rewrite lookup_insert_eq.
    + intros _. exists q. split; [right; by left|].
      by rewrite lookup_insert_eq.
Qed.

(** *** [build_optimizer] *)

(** C5: with a model registered, [build_optimizer()] stores under
    ["params"] what [divide_into_param_groups(model)] of the stored
    multiplier returns when the internal state has an ["lr_multiplier"],
    and what [model.parameters()] returns when it has none; it makes that
    one call and changes nothing else. *)
Theorem build_optimizer_stores_params m (model params : Obj) :
  _model (self m) = Some model →
  (∀ multiplier,
     _state (self m) !! "lr_multiplier" = Some multiplier →
     extern (trace m)
       (LrMultiplier_divide_into_param_groups multiplier (Some model))
       = Return params →
     result build_optimizer m = Return tt ∧
     _state (self (after build_optimizer m))
       = <["params" := params]> (_state (self m)) ∧
     trace (after build_optimizer m)
       = trace m ++ [(LrMultiplier_divide_into_param_groups multiplier (Some model),
                      Return params)] ∧
     dicts (after build_optimizer m) = dicts m) ∧
  (_state (self m) !! "lr_multiplier" = None →
   extern (trace m) (Module_parameters model) = Return params →
   result build_optimizer m = Return tt ∧
   _state (self (after build_optimizer m))
     = <["params" := params]> (_state (self m)) ∧
   trace (after build_optimizer m)
     = trace m ++ [(Module_parameters model, Return params)] ∧
   dicts (after build_optimizer m) = dicts m).
Proof.
  intros Hmodel. split.
  - intros multiplier Hmu Hcall.
    unfold result, after, build_optimizer. step_through.
    rewrite (state_contains_Some m _ _ Hmu), Hmu, Hmodel. simpl.
    by rewrite Hcall.
  - intros Hmu Hcall.
    unfold result, after, build_optimizer. step_through.
    rewrite (state_contains_None m _ Hmu), Hmodel. simpl.
    by rewrite Hcall.
Qed.

(** *** [zero_grad], [step], [state_dict] *)

(** C8: with an optimizer set, [zero_grad()], [step()] and
    [state_dict()] each make the one call of the method of that name on
    the underlying optimizer; [state_dict()] hands back what that call
    gave, returned or raised, the other two return [None] or pass the
    exception on; the attributes of the wrapper and the shared dicts are
    as before, and nothing but the optimizer and the history goes into
    the result. *)
Theorem optimizer_methods_delegate m (optimizer : Obj) :
  _optimizer (self m) = Some optimizer →
  zero_grad m =
    (match extern (trace m) (Optimizer_zero_grad optimizer) with
     | Return _ => Return tt
     | Raise e => Raise e
     end,
     {| self := self m; dicts := dicts m;
        trace := trace m ++ [(Optimizer_zero_grad optimizer,
                              extern (trace m) (Optimizer_zero_grad optimizer))] |}) ∧
  step m =
    (match extern (trace m) (Optimizer_step optimizer) with
     | Return _ => Return tt
     | Raise e => Raise e
     end,
     {| self := self m; dicts := dicts m;
        trace := trace m ++ [(Optimizer_step optimizer,
                              extern (trace m) (Optimizer_step optimizer))] |}) ∧
  state_dict m =
    (extern (trace m) (Optimizer_state_dict optimizer),
     {| self := self m; dicts := dicts m;
        trace := trace m ++ [(Optimizer_state_dict optimizer,
                              extern (trace m) (Optimizer_state_dict optimizer))] |}).
Proof.
  intros Hopt. unfold zero_grad, step, state_dict. step_through.
  rewrite Hopt. split; [|split].
  - by destruct (extern (trace m) (Optimizer_zero_grad optimizer)).
  - by destruct (extern (trace m) (Optimizer_step optimizer)).
  - reflexivity.
Qed.

(** *** [schedule] *)

(** C7: with neither an ["lr_policy"] nor an ["lr_multiplier"] in the
    internal state, [schedule(epoch, iteration)] returns the empty dict,
    makes no call (so the underlying optimizer is not touched) and
    changes nothing. *)
Theorem schedule_without_policy_and_multiplier m (epoch iteration : Z) :
  "lr_policy" ∉ dom (_state (self m)) →
  "lr_multiplier" ∉ dom (_state (self m)) →
  schedule epoch iteration m = (Return ∅, m).
Proof.
  intros Hp Hm. unfold schedule. step_through.
  by rewrite !bool_decide_eq_false_2.
Qed.

(** The report of [schedule] is built by the policy branch alone. *)
Lemma schedule_report m (epoch iteration : Z) (info : gmap string Obj) m' :
  schedule epoch iteration m = (Return info, m') →
  match _state (self m) !! "lr_policy" with
  | Some policy =>
      ∃ lr, extern (trace m) (LrPolicy_get_lr policy epoch iteration) = Return lr ∧
            info = {["lr" := lr]}
  | None => info = ∅
  end.
Proof.
  unfold schedule. step_through.
  destruct (_state (self m) !! "lr_policy") as [policy|] eqn:Hp.
  - rewrite (state_contains_Some m _ _ Hp). simpl. rewrite Hp. simpl.
    destruct (extern (trace m) (LrPolicy_get_lr policy epoch iteration))
      as [lr|e]; [|by intros [=]].
    destruct (extern _ (schedule_lr _ lr)) as [?|e]; [|by intros [=]]. simpl.
    case_bool_decide; simpl.
    + destruct (_state (self m) !! "lr_multiplier"); [|by intros [=]].
      destruct (extern _ _); intros [= <- _]. by exists lr.
    + intros [= <- _]. by exists lr.
  - rewrite (state_contains_None m _ Hp). simpl.
    case_bool_decide; simpl.
    + destruct (_state (self m) !! "lr_multiplier"); [|by intros [=]].
      destruct (extern _ _); by intros [= <- _].
    + by intros [= <- _].
Qed.

(** C10: the dict [schedule] returns has no key but ["lr"], and has
    ["lr"] exactly when the internal state has an ["lr_policy"]; whether
    an ["lr_multiplier"] is there and was applied does not show in it. *)
Theorem schedule_report_keys m (epoch iteration : Z) (info : gmap string Obj) m' :
  schedule epoch iteration m = (Return info, m') →
  dom info ⊆ {["lr"]} ∧
  ("lr" ∈ dom info ↔ "lr_policy" ∈ dom (_state (self m))) ∧
  ("lr_policy" ∉ dom (_state (self m)) → info = ∅).
Proof.
  intros Hrun. apply schedule_report in Hrun.
  destruct (_state (self m) !! "lr_policy") as [policy|] eqn:Hp.
  - destruct Hrun as (lr & _ & ->).
    assert ("lr_policy" ∈ dom (_state (self m))) by (apply elem_of_dom; eauto).
    rewrite dom_singleton_L. split; [done|]. split; [|done].
    split; [done|]. intros _. by apply elem_of_singleton.
  - subst info. apply not_elem_of_dom in Hp.
    rewrite dom_empty_L. split; [apply empty_subseteq|]. split; [|done].
    split; [|done]. intros Hin. by apply elem_of_empty in Hin.
Qed.

(** C6, as the code has it: when the collaborators return,
    [schedule(epoch, iteration)] returns; if a policy is stored it has
    asked it for [lr = get_lr(epoch, iteration)] and called
    [schedule_lr(optimizer, lr)], and the report is [{"lr": lr}]; if not,
    the report is empty; if a multiplier is stored it has then called
    [multiply_lr(optimizer)] on it, which the report does not show; it
    makes no other call and changes nothing of the wrapper. *)
Theorem schedule_applies_policy_and_multiplier m (epoch iteration : Z) :
  (∀ t policy, ∃ lr, extern t (LrPolicy_get_lr policy epoch iteration) = Return lr) →
  (∀ t lr, ∃ o, extern t (schedule_lr (_optimizer (self m)) lr) = Return o) →
  (∀ t multiplier,
     ∃ o, extern t (LrMultiplier_multiply_lr multiplier (_optimizer (self m)))
          = Return o) →
  ∃ info m' evp evm,
    schedule epoch iteration m = (Return info, m') ∧
    self m' = self m ∧ dicts m' = dicts m ∧
    trace m' = trace m ++ evp ++ evm ∧
    match _state (self m) !! "lr_policy" with
    | Some policy =>
        ∃ lr r,
          evp = [(LrPolicy_get_lr policy epoch iteration, Return lr);
                 (schedule_lr (_optimizer (self m)) lr, r)] ∧
          info = {["lr" := lr]}
    | None => evp = [] ∧ info = ∅
    end ∧
    match _state (self m) !! "lr_multiplier" with
    | Some multiplier =>
        ∃ r, evm = [(LrMultiplier_multiply_lr multiplier (_optimizer (self m)), r)]
    | None => evm = []
    end.
Proof.
  intros Hget Hsched Hmul. unfold schedule. step_through.
  destruct (_state (self m) !! "lr_policy") as [policy|] eqn:Hp;
    destruct (_state (self m) !! "lr_multiplier") as [multiplier|] eqn:Hm.
  - rewrite (state_contains_Some m _ _ Hp). simpl. rewrite Hp. simpl.
    destruct (Hget (trace m) policy) as [lr Hlr].
    rewrite Hlr.
    destruct (Hsched (trace m ++ [(LrPolicy_get_lr policy epoch iteration, Return lr)])
                lr) as [r1 Hr1].
    rewrite Hr1. simpl.
    rewrite (state_contains_Some m _ _ Hm). simpl. rewrite Hm. simpl.
    destruct (Hmul ((trace m ++ [(LrPolicy_get_lr policy epoch iteration, Return lr)])
                      ++ [(schedule_lr (_optimizer (self m)) lr, Return r1)])
                multiplier) as [r2 Hr2].
    rewrite Hr2.
    eexists _, _, [_; _], [_]. split; [reflexivity|]. simpl.
    split; [done|]. split; [done|]. split; [by rewrite <- !app_assoc|].
    split; [by eexists _, _|by eexists].
  - rewrite (state_contains_Some m _ _ Hp). simpl. rewrite Hp. simpl.
    destruct (Hget (trace m) policy) as [lr Hlr].
    rewrite Hlr.
    destruct (Hsched (trace m ++ [(LrPolicy_get_lr policy epoch iteration, Return lr)])
                lr) as [r1 Hr1].
    rewrite Hr1. simpl.
    rewrite (state_contains_None m _ Hm). simpl.
    eexists _, _, [_; _], []. split; [reflexivity|]. simpl.
    split; [done|]. split; [done|]. split; [by rewrite <- !app_assoc|].
    split; [by eexists _, _|done].
  - rewrite (state_contains_None m _ Hp). simpl.
    rewrite (state_contains_Some m _ _ Hm). simpl. rewrite Hm. simpl.
    destruct (Hmul (trace m) multiplier) as [r2 Hr2].
    rewrite Hr2.
    eexists _, _, [], [_]. split; [reflexivity|]. simpl.
    split; [done|]. split; [done|]. split; [done|].
    split; [done|by eexists].
  - rewrite (state_contains_None m _ Hp). simpl.
    rewrite (state_contains_None m _ Hm). simpl.
    exists ∅, m, [], []. by rewrite app_nil_r.
Qed.

End Collaborators.

(** ** More on [set_hps]: what it leaves alone and how calls compose *)

Section HyperParameterFrames.

Implicit Types (m : machine) (hps : pydict) (key k : string) (v : value).

(** Every run of [set_hps], returned or raised, is a run over the keys it
    has written. *)
Lemma set_hps_run m hps :
  ∃ (written : list string) (r : outcome unit) m',
    set_hps hps m = (r, m') ∧
    (r = Return tt ∨ r = Raise KeyError) ∧
    (∀ k, k ∈ written → k ∈ dict_keys hps) ∧
    self m' = self m ∧ trace m' = trace m ∧
    (∀ l, l ≠ _hyper_params (self m) → dicts m' !! l = dicts m !! l) ∧
    (∀ k, hyper_params m' !! k =
          if decide (k ∈ written) then dict_get hps k else hyper_params m !! k).
Proof.
  destruct (keys_known_or_not m hps) as [Hall|Hex].
  - destruct (for_each_known hps (dict_keys hps) m)
      as (m' & Hrun & Hself & Htr & Hother & _ & Hlook & _); [by auto|].
    exists (dict_keys hps), (Return tt), m'. repeat split; auto.
  - destruct (set_hps_some_unknown m hps Hex)
      as (known & key & rest & m' & Hks & _ & _ & Hrun & Hself & Htr & Hother & Hlook & _).
    exists known, (Raise KeyError), m'. repeat split; auto.
    intros k Hk. rewrite Hks. apply elem_of_app. by left.
Qed.

(** X2: whether it returns or raises, [set_hps(hps)] leaves every
    hyper-parameter whose key is not in [hps] as it was, does not touch the
    attributes of the wrapper or any other dict, and calls no collaborator. *)
Theorem set_hps_touches_only_its_keys m hps :
  self (after (set_hps hps) m) = self m ∧
  trace (after (set_hps hps) m) = trace m ∧
  (∀ l, l ≠ _hyper_params (self m) →
        dicts (after (set_hps hps) m) !! l = dicts m !! l) ∧
  (∀ k, k ∉ dict_keys hps →
        hyper_params (after (set_hps hps) m) !! k = hyper_params m !! k).
Proof.
  destruct (set_hps_run m hps)
    as (written & r & m' & Hrun & _ & Hsub & Hself & Htr & Hother & Hlook).
  unfold after. rewrite Hrun. simpl.
  split; [done|]. split; [done|]. split; [done|].
  intros k Hk. rewrite Hlook, decide_False; [done|]. intros Hin. by apply Hk, Hsub.
Qed.



(** X4: two calls of [set_hps] on known keys both return, and the later one
    wins: a key of the second dict has its value there, a key of the first
    only has its value in the first, any other key is as before. *)
Theorem set_hps_twice_later_wins m hps1 hps2 :
  (∀ k, k ∈ dict_keys hps1 → k ∈ dom (hyper_params m)) →
  (∀ k, k ∈ dict_keys hps2 → k ∈ dom (hyper_params m)) →
  result (set_hps hps1) m = Return tt ∧
  result (set_hps hps2) (after (set_hps hps1) m) = Return tt ∧
  ∀ k, hyper_params (after (set_hps hps2) (after (set_hps hps1) m)) !! k =
       if decide (k ∈ dict_keys hps2) then dict_get hps2 k
       else if decide (k ∈ dict_keys hps1) then dict_get hps1 k
       else hyper_params m !! k.
Proof.
  intros H1 H2.
  destruct (for_each_known hps1 (dict_keys hps1) m)
    as (m1 & Hrun1 & _ & _ & _ & Hdom1 & Hlook1 & _); [by auto|].
  destruct (for_each_known hps2 (dict_keys hps2) m1)
    as (m2 & Hrun2 & _ & _ & _ & _ & Hlook2 & _).
  { intros k Hk. rewrite Hdom1. auto. }
  unfold result, after, set_hps. rewrite Hrun1. simpl. rewrite Hrun2. simpl.
  split; [done|]. split; [done|].
  intros k. rewrite Hlook2. case_decide; [done|]. apply Hlook1.
Qed.

(** X5: a wrapper whose [_hyper_params] is another dict (an instance of a
    class with a [default_hyper_params] of its own) keeps its
    hyper-parameters when [set_hps] runs on this one. *)
Theorem set_hps_leaves_other_dicts m hps (other : OptimizerBase) :
  _hyper_params other ≠ _hyper_params (self m) →
  hyper_params (with_self other (after (set_hps hps) m))
  = hyper_params (with_self other m).
Proof.
  intros Hne.
  destruct (set_hps_run m hps)
    as (written & r & m' & Hrun & _ & _ & _ & _ & Hother & _).
  unfold after. rewrite Hrun. simpl.
  unfold hyper_params, deref, with_self. simpl.
  rewrite !lookup_total_alt. by rewrite Hother.
Qed.

End HyperParameterFrames.

(** ** What the calling methods leave alone, and how they fail *)

Section CollaboratorFrames.
Context {collaborators : Externals}.

Implicit Types (m : machine) (key : string) (o : Obj) (c : call).

(** Unfolds a method body down to the machine. *)
Ltac unfold_methods :=
  unfold mbind, M_bind, mret, M_ret, when, attr, len, raise, method,
    call_extern, state_contains, state_getitem, state_setitem, model_assign,
    hyper_params_getitem; simpl.

(** Splits a method body on every test and every answer of a collaborator. *)
Ltac run_all_paths :=
  unfold_methods;
  repeat match goal with
  | |- context [match ?x with _ => _ end] =>
      lazymatch x with
      | context [match _ with _ => _ end] => fail
      | _ => destruct x eqn:?; simpl
      end
  end.

(** Closes one path of a frame statement: untouched lookups, a domain
    that only grew, and the events appended to the history. *)
Ltac frame_leaf :=
  repeat match goal with
  | |- _ ∧ _ => split
  | |- _ = _ => done
  | |- ∀ _, _ => intros
  | |- _ !! _ = _ => by rewrite ?lookup_insert_ne
  | |- _ ⊆ _ => repeat (etrans; [|apply dom_insert_subseteq]); reflexivity
  | |- (_ ≤ _)%nat => simpl; lia
  | |- ∃ evs, ?t = ?t ++ evs ∧ _ => exists []; split; [by rewrite app_nil_r|]
  | |- ∃ evs, _ = _ ++ evs ∧ _ =>
      rewrite <- ?app_assoc; eexists; split; [reflexivity|]
  | H : _ ∈ _ |- _ =>
      apply list_elem_of_In in H; simpl in H;
      repeat (destruct H as [H|H]; [inversion H; subst; by eauto|]); done
  end.

(** X6: whether it returns or raises, [update_params()] only adds to the
    internal state: no key is removed, no key other than ["lr_policy"] and
    ["lr_multiplier"] is written, the hyper-parameters and the other
    attributes are untouched, and the calls it makes are at most two, all
    to the builders. *)
Theorem update_params_only_adds m :
  dicts (after update_params m) = dicts m ∧
  _hyper_params (self (after update_params m)) = _hyper_params (self m) ∧
  _cfg (self (after update_params m)) = _cfg (self m) ∧
  _model (self (after update_params m)) = _model (self m) ∧
  _optimizer (self (after update_params m)) = _optimizer (self m) ∧
  (∀ key, key ≠ "lr_policy" → key ≠ "lr_multiplier" →
     _state (self (after update_params m)) !! key = _state (self m) !! key) ∧
  dom (_state (self m)) ⊆ dom (_state (self (after update_params m))) ∧
  ∃ evs, trace (after update_params m) = trace m ++ evs ∧
         (length evs ≤ 2)%nat ∧
         ∀ c r, (c, r) ∈ evs →
           (∃ cfg, c = build_lr_policy cfg) ∨ (∃ cfg, c = build_lr_multiplier cfg).
Proof.
  unfold after, update_params. run_all_paths.
  all: frame_leaf.
Qed.

(** X7: whether it returns or raises, [build_optimizer()] writes nothing
    but the ["params"] entry of the internal state, and not even that when
    it raises; it makes at most one call. *)
Theorem build_optimizer_only_writes_params m :
  dicts (after build_optimizer m) = dicts m ∧
  _hyper_params (self (after build_optimizer m)) = _hyper_params (self m) ∧
  _cfg (self (after build_optimizer m)) = _cfg (self m) ∧
  _model (self (after build_optimizer m)) = _model (self m) ∧
  _optimizer (self (after build_optimizer m)) = _optimizer (self m) ∧
  (∀ key, key ≠ "params" →
     _state (self (after build_optimizer m)) !! key = _state (self m) !! key) ∧
  (∀ e, result build_optimizer m = Raise e →
     _state (self (after build_optimizer m)) = _state (self m)) ∧
  ∃ evs, trace (after build_optimizer m) = trace m ++ evs ∧ (length evs ≤ 1)%nat.
Proof.
  unfold result, after, build_optimizer. run_all_paths.
  all: frame_leaf.
Qed.

(** X8: whether it returns or raises, [schedule] changes no attribute of
    the wrapper and no hyper-parameter; it makes at most three calls:
    [get_lr], [schedule_lr] and [multiply_lr], the last two on the
    optimizer of the wrapper. *)
Theorem schedule_changes_no_attribute m (epoch iteration : Z) :
  self (after (schedule epoch iteration) m) = self m ∧
  dicts (after (schedule epoch iteration) m) = dicts m ∧
  ∃ evs, trace (after (schedule epoch iteration) m) = trace m ++ evs ∧
         (length evs ≤ 3)%nat ∧
         ∀ c r, (c, r) ∈ evs →
           (∃ policy, c = LrPolicy_get_lr policy epoch iteration) ∨
           (∃ lr, c = schedule_lr (_optimizer (self m)) lr) ∨
           (∃ multiplier,
              c = LrMultiplier_multiply_lr multiplier (_optimizer (self m))).
Proof.
  unfold after, schedule. run_all_paths.
  all: frame_leaf.
Qed.

(** *** Failures of [update_params] *)

(** X9: [update_params()] raises [KeyError] when the hyper-parameters have
    no ["lr_policy"] and [TypeError] when its value has no length; in both
    cases before any builder is called and with nothing changed. *)
Theorem update_params_fails_before_building m :
  (hyper_params m !! "lr_policy" = None →
   update_params m = (Raise KeyError, m)) ∧
  (∀ v, hyper_params m !! "lr_policy" = Some v → py_len v = Raise TypeError →
        update_params m = (Raise TypeError, m)).
Proof.
  split.
  - intros Hp. unfold update_params. unfold_methods. by rewrite Hp.
  - intros v Hp Hlen. unfold update_params. unfold_methods.
    rewrite Hp. simpl. by rewrite Hlen.
Qed.

(** X10: when [build_lr_policy] raises on a non-empty policy list,
    [update_params()] raises the same exception; the internal state is as
    it was and the multiplier builder has not been called. *)
Theorem update_params_policy_builder_raises m (lp : list value) (e : exn) :
  hyper_params m !! "lr_policy" = Some (VList lp) →
  lp ≠ [] →
  extern (trace m) (build_lr_policy (VList lp)) = Raise e →
  update_params m =
    (Raise e,
     {| self := self m; dicts := dicts m;
        trace := trace m ++ [(build_lr_policy (VList lp), Raise e)] |}).
Proof.
  intros Hp Hne Hcall. unfold update_params. unfold_methods.
  rewrite Hp. simpl. destruct lp as [|v lp]; [done|]. simpl. by rewrite Hcall.
Qed.

(** X11: when the policy was built and [build_lr_multiplier] then raises,
    [update_params()] raises that exception with the new policy already
    stored under ["lr_policy"] and no ["lr_multiplier"] written. *)
Theorem update_params_multiplier_builder_raises
    m (lp lm : list value) (policy : Obj) (e : exn) :
  hyper_params m !! "lr_policy" = Some (VList lp) →
  hyper_params m !! "lr_multiplier" = Some (VList lm) →
  lp ≠ [] → lm ≠ [] →
  extern (trace m) (build_lr_policy (VList lp)) = Return policy →
  extern (trace m ++ [(build_lr_policy (VList lp), Return policy)])
    (build_lr_multiplier (VList lm)) = Raise e →
  result update_params m = Raise e ∧
  _state (self (after update_params m)) = <["lr_policy" := policy]> (_state (self m)) ∧
  trace (after update_params m)
    = trace m ++ [(build_lr_policy (VList lp), Return policy);
                  (build_lr_multiplier (VList lm), Raise e)].
Proof.
  intros Hp Hm Hlp Hlm Hcall1 Hcall2.
  unfold result, after, update_params. unfold_methods.
  rewrite Hp. simpl. destruct lp as [|v lp]; [done|]. simpl. rewrite Hcall1.
  unfold hyper_params, deref in *. simpl. rewrite Hm. simpl.
  destruct lm as [|w lm]; [done|]. simpl. rewrite Hcall2. simpl.
  by rewrite <- app_assoc.
Qed.

(** *** Failures of the delegating methods and of [build_optimizer] *)

(** X12: while no optimizer is set ([_optimizer] is [None], as [__init__]
    leaves it), [zero_grad()], [step()] and [state_dict()] raise
    [AttributeError], call nothing and change nothing. *)
Theorem optimizer_methods_without_optimizer m :
  _optimizer (self m) = None →
  zero_grad m = (Raise AttributeError, m) ∧
  step m = (Raise AttributeError, m) ∧
  state_dict m = (Raise AttributeError, m).
Proof.
  intros Hopt. unfold zero_grad, step, state_dict. unfold_methods.
  by rewrite Hopt.
Qed.

(** X13: with no model registered and no multiplier stored,
    [build_optimizer()] raises [AttributeError], calls nothing and stores
    no ["params"]. *)
Theorem build_optimizer_without_model m :
  _model (self m) = None →
  "lr_multiplier" ∉ dom (_state (self m)) →
  build_optimizer m = (Raise AttributeError, m).
Proof.
  intros Hmodel Hmu. unfold build_optimizer. unfold_methods.
  rewrite bool_decide_eq_false_2 by done. by rewrite Hmodel.
Qed.

(** [build_optimizer] on a machine whose model is known: the one call it
    makes and what it stores. *)
Lemma build_optimizer_run m (model : Obj) (c : call) :
  _model (self m) = Some model →
  c = match _state (self m) !! "lr_multiplier" with
      | Some multiplier =>
          LrMultiplier_divide_into_param_groups multiplier (Some model)
      | None => Module_parameters model
      end →
  build_optimizer m =
    (match extern (trace m) c with Return _ => Return tt | Raise e => Raise e end,
     {| self := {| _hyper_params := _hyper_params (self m);
                   _state := match extern (trace m) c with
                             | Return params => <["params" := params]> (_state (self m))
                             | Raise _ => _state (self m)
                             end;
                   _cfg := _cfg (self m);
                   _model := _model (self m);
                   _optimizer := _optimizer (self m) |};
        dicts := dicts m;
        trace := trace m ++ [(c, extern (trace m) c)] |}).
Proof.
  intros Hmodel ->. unfold build_optimizer. unfold_methods.
  destruct (_state (self m) !! "lr_multiplier") as [multiplier|] eqn:Hmu.
  - rewrite (bool_decide_eq_true_2 _) by (apply elem_of_dom; eauto).
    simpl. rewrite Hmu, Hmodel. simpl.
    destruct (extern (trace m) _); simpl;
      destruct m as [[]]; simpl in *; by subst.
  - rewrite (bool_decide_eq_false_2 _) by (by apply not_elem_of_dom).
    simpl. rewrite Hmodel. simpl.
    destruct (extern (trace m) _); simpl;
      destruct m as [[]]; simpl in *; by subst.
Qed.

(** X14: [build_optimizer()] right after [set_model(model)] works on that
    model, whatever was registered before: its one call is
    [divide_into_param_groups(model)] on the stored multiplier, or
    [model.parameters()] when there is none; ["params"] gets what the call
    returned, and is left alone when the call raised. *)
Theorem build_optimizer_uses_registered_model m (model : Obj) :
  ∃ c,
    c = match _state (self m) !! "lr_multiplier" with
        | Some multiplier =>
            LrMultiplier_divide_into_param_groups multiplier (Some model)
        | None => Module_parameters model
        end ∧
    result build_optimizer (after (set_model model) m)
      = match extern (trace m) c with Return _ => Return tt | Raise e => Raise e end ∧
    trace (after build_optimizer (after (set_model model) m))
      = trace m ++ [(c, extern (trace m) c)] ∧
    _state (self (after build_optimizer (after (set_model model) m)))
      = match extern (trace m) c with
        | Return params => <["params" := params]> (_state (self m))
        | Raise _ => _state (self m)
        end ∧
    _model (self (after build_optimizer (after (set_model model) m))) = Some model.
Proof.
  eexists. split; [reflexivity|].
  unfold result, after.
  rewrite (build_optimizer_run (set_model model m).2 model _ eq_refl eq_refl).
  by simpl.
Qed.

(** *** Failures of [schedule] *)

(** X15: when a policy is stored and [get_lr] raises, or [get_lr] returns
    and [schedule_lr] raises, [schedule] raises that exception at once: a
    stored multiplier is not applied and no report is returned. *)
Theorem schedule_failing_policy_skips_the_rest
    m (epoch iteration : Z) (policy : Obj) :
  _state (self m) !! "lr_policy" = Some policy →
  (∀ e, extern (trace m) (LrPolicy_get_lr policy epoch iteration) = Raise e →
        schedule epoch iteration m =
          (Raise e,
           {| self := self m; dicts := dicts m;
              trace := trace m ++ [(LrPolicy_get_lr policy epoch iteration, Raise e)] |})) ∧
  (∀ lr e,
     extern (trace m) (LrPolicy_get_lr policy epoch iteration) = Return lr →
     extern (trace m ++ [(LrPolicy_get_lr policy epoch iteration, Return lr)])
       (schedule_lr (_optimizer (self m)) lr) = Raise e →
     schedule epoch iteration m =
       (Raise e,
        {| self := self m; dicts := dicts m;
           trace := trace m ++ [(LrPolicy_get_lr policy epoch iteration, Return lr);
                                (schedule_lr (_optimizer (self m)) lr, Raise e)] |})).
Proof.
  intros Hp. split.
  - intros e Hget. unfold schedule. unfold_methods.
    rewrite (state_contains_Some m _ _ Hp). simpl. rewrite Hp. simpl.
    by rewrite Hget.
  - intros lr e Hget Hsched. unfold schedule. unfold_methods.
    rewrite (state_contains_Some m _ _ Hp). simpl. rewrite Hp. simpl.
    rewrite Hget, Hsched. simpl. by rewrite <- app_assoc.
Qed.

(** *** From configuration to use *)

(** After [update_params()] on a non-empty policy list whose builder
    returned, the policy is in the internal state, whatever became of the
    multiplier. *)
Lemma update_params_stores_policy m (lp : list value) (policy : Obj) :
  hyper_params m !! "lr_policy" = Some (VList lp) →
  lp ≠ [] →
  extern (trace m) (build_lr_policy (VList lp)) = Return policy →
  _state (self (after update_params m)) !! "lr_policy" = Some policy ∧
  _optimizer (self (after update_params m)) = _optimizer (self m).
Proof.
  intros Hp Hne Hcall. unfold after, update_params. unfold_methods.
  rewrite Hp. simpl. destruct lp as [|v lp]; [done|]. simpl. rewrite Hcall.
  run_all_paths.
  all: split; [|done].
  all: rewrite ?lookup_insert_ne by done; by rewrite lookup_insert_eq.
Qed.

(** [schedule] with a policy stored and collaborators that return. *)
Lemma schedule_with_policy_returns m (epoch iteration : Z) (policy : Obj) :
  _state (self m) !! "lr_policy" = Some policy →
  (∀ t c, ∃ o, extern t c = Return o) →
  ∃ lr, result (schedule epoch iteration) m = Return {["lr" := lr]} ∧
        (LrPolicy_get_lr policy epoch iteration, Return lr)
          ∈ trace (after (schedule epoch iteration) m) ∧
        (schedule_lr (_optimizer (self m)) lr,
         extern (trace m ++ [(LrPolicy_get_lr policy epoch iteration, Return lr)])
           (schedule_lr (_optimizer (self m)) lr))
          ∈ trace (after (schedule epoch iteration) m).
Proof.
  intros Hp Hret. unfold result, after, schedule. unfold_methods.
  rewrite (state_contains_Some m _ _ Hp). simpl. rewrite Hp. simpl.
  destruct (Hret (trace m) (LrPolicy_get_lr policy epoch iteration)) as [lr Hlr].
  rewrite Hlr. exists lr.
  destruct (Hret (trace m ++ [(LrPolicy_get_lr policy epoch iteration, Return lr)])
              (schedule_lr (_optimizer (self m)) lr)) as [r1 Hr1].
  rewrite Hr1. simpl.
  destruct (_state (self m) !! "lr_multiplier") as [multiplier|] eqn:Hm.
  - rewrite (state_contains_Some m _ _ Hm). simpl. rewrite Hm. simpl.
    destruct (Hret ((trace m ++ [(LrPolicy_get_lr policy epoch iteration, Return lr)])
                      ++ [(schedule_lr (_optimizer (self m)) lr, Return r1)])
                (LrMultiplier_multiply_lr multiplier (_optimizer (self m))))
      as [r2 Hr2].
    rewrite Hr2. simpl. split; [done|].
    rewrite !elem_of_app, !list_elem_of_singleton. auto.
  - rewrite (state_contains_None m _ Hm). simpl. split; [done|].
    rewrite !elem_of_app, !list_elem_of_singleton. auto.
Qed.

(** X16: once the hyper-parameters hold a non-empty policy list and the
    collaborators return, [update_params()] followed by
    [schedule(epoch, iteration)] reports under ["lr"] the learning rate
    that the policy built from that list gave for the epoch and iteration,
    and has handed it to [schedule_lr] with the optimizer of the wrapper. *)
Theorem configured_policy_is_reported m (lp : list value) (epoch iteration : Z) :
  hyper_params m !! "lr_policy" = Some (VList lp) →
  lp ≠ [] →
  (∀ t c, ∃ o, extern t c = Return o) →
  ∃ policy lr r,
    extern (trace m) (build_lr_policy (VList lp)) = Return policy ∧
    _state (self (after update_params m)) !! "lr_policy" = Some policy ∧
    result (schedule epoch iteration) (after update_params m)
      = Return {["lr" := lr]} ∧
    (LrPolicy_get_lr policy epoch iteration, Return lr)
      ∈ trace (after (schedule epoch iteration) (after update_params m)) ∧
    (schedule_lr (_optimizer (self m)) lr, r)
      ∈ trace (after (schedule epoch iteration) (after update_params m)).
Proof.
  intros Hp Hne Hret.
  destruct (Hret (trace m) (build_lr_policy (VList lp))) as [policy Hcall].
  destruct (update_params_stores_policy m lp policy Hp Hne Hcall) as [Hst Hopt].
  destruct (schedule_with_policy_returns (after update_params m)
              epoch iteration policy Hst Hret) as (lr & Hres & Hget & Hsched).
  rewrite Hopt in Hsched. eauto 10.
Qed.

(** [build_optimizer] with a multiplier stored: the model is passed on as
    it is, registered or not. *)
Lemma build_optimizer_with_multiplier m (multiplier : Obj) :
  _state (self m) !! "lr_multiplier" = Some multiplier →
  result build_optimizer m
    = match extern (trace m)
              (LrMultiplier_divide_into_param_groups multiplier (_model (self m))) with
      | Return _ => Return tt
      | Raise e => Raise e
      end ∧
  trace (after build_optimizer m)
    = trace m ++ [(LrMultiplier_divide_into_param_groups multiplier (_model (self m)),
                   extern (trace m)
                     (LrMultiplier_divide_into_param_groups multiplier
                        (_model (self m))))] ∧
  ∀ params,
    extern (trace m)
      (LrMultiplier_divide_into_param_groups multiplier (_model (self m)))
      = Return params →
    _state (self (after build_optimizer m)) !! "params" = Some params.
Proof.
  intros Hmu. unfold result, after, build_optimizer. unfold_methods.
  rewrite (state_contains_Some m _ _ Hmu). simpl. rewrite Hmu. simpl.
  destruct (extern (trace m) _) as [ps|e]; simpl.
  - repeat split. intros params [= ->]. by rewrite lookup_insert_eq.
  - by repeat split.
Qed.

(** After [update_params()] on list configurations with a non-empty
    multiplier list and builders that return, the multiplier is in the
    internal state. *)
Lemma update_params_stores_multiplier m (lp lm : list value) :
  hyper_params m !! "lr_policy" = Some (VList lp) →
  hyper_params m !! "lr_multiplier" = Some (VList lm) →
  lm ≠ [] →
  (∀ t c, ∃ o, extern t c = Return o) →
  ∃ multiplier,
    result update_params m = Return tt ∧
    _state (self (after update_params m)) !! "lr_multiplier" = Some multiplier ∧
    _model (self (after update_params m)) = _model (self m) ∧
    (build_lr_multiplier (VList lm), Return multiplier)
      ∈ trace (after update_params m).
Proof.
  intros Hp Hm Hne Hret. unfold result, after, update_params. unfold_methods.
  rewrite Hp. simpl. destruct lm as [|w lm]; [done|].
  destruct lp as [|v lp]; simpl.
  - rewrite Hm. simpl.
    destruct (Hret (trace m) (build_lr_multiplier (VList (w :: lm)))) as [q Hq].
    rewrite Hq. simpl. exists q. rewrite lookup_insert_eq.
    repeat split. rewrite elem_of_app, list_elem_of_singleton. auto.
  - destruct (Hret (trace m) (build_lr_policy (VList (v :: lp)))) as [p Hcall].
    rewrite Hcall. unfold hyper_params, deref in *. simpl. rewrite Hm. simpl.
    destruct (Hret (trace m ++ [(build_lr_policy (VList (v :: lp)), Return p)])
                (build_lr_multiplier (VList (w :: lm)))) as [q Hq].
    rewrite Hq. simpl. exists q. rewrite lookup_insert_eq.
    repeat split. rewrite elem_of_app, list_elem_of_singleton. auto.
Qed.

(** X17: once the hyper-parameters hold list configurations with a
    non-empty multiplier list and the collaborators return,
    [update_params()] followed by [build_optimizer()] returns and stores
    under ["params"] the groups that the multiplier built from that list
    made of the model of the wrapper (of [None] when none is registered). *)
Theorem configured_multiplier_groups_params m (lp lm : list value) :
  hyper_params m !! "lr_policy" = Some (VList lp) →
  hyper_params m !! "lr_multiplier" = Some (VList lm) →
  lm ≠ [] →
  (∀ t c, ∃ o, extern t c = Return o) →
  ∃ multiplier params,
    (build_lr_multiplier (VList lm), Return multiplier)
      ∈ trace (after update_params m) ∧
    result build_optimizer (after update_params m) = Return tt ∧
    (LrMultiplier_divide_into_param_groups multiplier (_model (self m)), Return params)
      ∈ trace (after build_optimizer (after update_params m)) ∧
    _state (self (after build_optimizer (after update_params m))) !! "params"
      = Some params.
Proof.
  intros Hp Hm Hne Hret.
  destruct (update_params_stores_multiplier m lp lm Hp Hm Hne Hret)
    as (multiplier & _ & Hst & Hmodel & Hbuilt).
  destruct (build_optimizer_with_multiplier (after update_params m) multiplier Hst)
    as (Hres & Htr & Hparams).
  rewrite Hmodel in *.
  destruct (Hret (trace (after update_params m))
              (LrMultiplier_divide_into_param_groups multiplier (_model (self m))))
    as [params Hcall].
  exists multiplier, params. rewrite Hres, Htr, Hcall.
  split; [done|]. split; [done|]. split; [|by apply Hparams].
  rewrite elem_of_app, list_elem_of_singleton. auto.
Qed.

(** [update_params] reads the hyper-parameters and does not write them. *)
Lemma update_params_keeps_hyper_params m :
  hyper_params (after update_params m) = hyper_params m.
Proof.
  unfold after, update_params, hyper_params, deref. unfold_methods.
  unfold hyper_params, deref. run_all_paths. all: done.
Qed.

(** X18: [update_params()] keeps no cache: called again on the same
    non-empty policy list it calls [build_lr_policy] again and the policy
    of the second call replaces the one of the first. *)
Theorem update_params_again_rebuilds m (lp : list value) :
  hyper_params m !! "lr_policy" = Some (VList lp) →
  lp ≠ [] →
  (∀ t c, ∃ o, extern t c = Return o) →
  ∃ first second,
    extern (trace m) (build_lr_policy (VList lp)) = Return first ∧
    _state (self (after update_params m)) !! "lr_policy" = Some first ∧
    extern (trace (after update_params m)) (build_lr_policy (VList lp))
      = Return second ∧
    _state (self (after update_params (after update_params m))) !! "lr_policy"
      = Some second.
Proof.
  intros Hp Hne Hret.
  destruct (Hret (trace m) (build_lr_policy (VList lp))) as [first Hfirst].
  destruct (Hret (trace (after update_params m)) (build_lr_policy (VList lp)))
    as [second Hsecond].
  exists first, second.
  destruct (update_params_stores_policy m lp first Hp Hne Hfirst) as [Hst1 _].
  destruct (update_params_stores_policy (after update_params m) lp second)
    as [Hst2 _]; [by rewrite update_params_keeps_hyper_params|done|done|].
  done.
Qed.

(** [schedule] and [build_optimizer] read the attributes of the wrapper
    and the history of calls, never the store of hyper-parameter dicts. *)
Lemma schedule_and_build_optimizer_ignore_dicts m m' (epoch iteration : Z) :
  self m' = self m → trace m' = trace m →
  result (schedule epoch iteration) m' = result (schedule epoch iteration) m ∧
  trace (after (schedule epoch iteration) m')
    = trace (after (schedule epoch iteration) m) ∧
  result build_optimizer m' = result build_optimizer m ∧
  trace (after build_optimizer m') = trace (after build_optimizer m) ∧
  _state (self (after build_optimizer m')) = _state (self (after build_optimizer m)).
Proof.
  destruct m as [s d t], m' as [s' d' t']. simpl. intros -> ->.
  unfold result, after, schedule, build_optimizer. run_all_paths.
  all: by repeat split.
Qed.

(** X19: hyper-parameters reach [schedule] and [build_optimizer] through
    [update_params()] only: a [set_hps] that is not followed by it, returned
    or raised, changes neither their outcome nor the calls they make. *)
Theorem set_hps_alone_changes_no_behaviour m (hps : pydict) (epoch iteration : Z) :
  result (schedule epoch iteration) (after (set_hps hps) m)
    = result (schedule epoch iteration) m ∧
  trace (after (schedule epoch iteration) (after (set_hps hps) m))
    = trace (after (schedule epoch iteration) m) ∧
  result build_optimizer (after (set_hps hps) m) = result build_optimizer m ∧
  trace (after build_optimizer (after (set_hps hps) m))
    = trace (after build_optimizer m) ∧
  _state (self (after build_optimizer (after (set_hps hps) m)))
    = _state (self (after build_optimizer m)).
Proof.
  destruct (set_hps_run m hps)
    as (written & r & m' & Hrun & _ & _ & Hself & Htr & _).
  apply schedule_and_build_optimizer_ignore_dicts;
    unfold after; by rewrite Hrun.
Qed.

End CollaboratorFrames.

(** ** The theorems at the sample machines *)

Section Samples.
#[local] Existing Instance sample_externals.

(** [set_hps] on a dict with a known key before an unknown one: the
    [KeyError] comes after the known key has been written. *)
Lemma set_hps_unknown_key_raises_at_mixed_hps :
  (∃ k, k ∈ dict_keys mixed_hps ∧ k ∉ dom (hyper_params sample_machine)) ∧
  ∃ known key rest,
    dict_keys mixed_hps = known ++ (key :: rest) ∧
    (∀ k, k ∈ known → k ∈ dom (hyper_params sample_machine)) ∧
    (key ∉ dom (hyper_params sample_machine)) ∧
    result (set_hps mixed_hps) sample_machine = Raise KeyError ∧
    self (after (set_hps mixed_hps) sample_machine) = self sample_machine ∧
    trace (after (set_hps mixed_hps) sample_machine) = trace sample_machine ∧
    (∀ l, l ≠ _hyper_params (self sample_machine) →
          dicts (after (set_hps mixed_hps) sample_machine) !! l
          = dicts sample_machine !! l) ∧
    (∀ k, hyper_params (after (set_hps mixed_hps) sample_machine) !! k =
          if decide (k ∈ known) then dict_get mixed_hps k
          else hyper_params sample_machine !! k) ∧
    (known = [] → after (set_hps mixed_hps) sample_machine = sample_machine).
Proof.
  assert (Hex : ∃ k, k ∈ dict_keys mixed_hps ∧ k ∉ dom (hyper_params sample_machine)).
  { exists "momentum". split.
    - apply (bool_decide_unpack _). vm_compute. exact I.
    - apply not_elem_of_dom. reflexivity. }
  split; [exact Hex|].
  exact (set_hps_unknown_key_raises sample_machine mixed_hps Hex).
Defined.

(** Against C1 as first stated: [mixed_hps] has the unknown key ["momentum"],
    [set_hps] raises [KeyError], and the hyper-parameters are not what
    they were: ["lr_policy"] has already been overwritten. *)
Lemma set_hps_unknown_key_after_partial_write :
  (∃ k, k ∈ dict_keys mixed_hps ∧ k ∉ dom (hyper_params sample_machine)) ∧
  result (set_hps mixed_hps) sample_machine = Raise KeyError ∧
  hyper_params sample_machine !! "lr_policy" = Some (VList []) ∧
  hyper_params (after (set_hps mixed_hps) sample_machine) !! "lr_policy"
    = Some (VList [VStr "LinearLR"]) ∧
  hyper_params (after (set_hps mixed_hps) sample_machine)
    ≠ hyper_params sample_machine.
Proof.
  split; [|split; [|split; [|split]]].
  - exists "momentum". split.
    + apply (bool_decide_unpack _). vm_compute. exact I.
    + apply not_elem_of_dom. reflexivity.
  - vm_compute. reflexivity.
  - reflexivity.
  - vm_compute. reflexivity.
  - intros Heq.
    assert (Hl : hyper_params (after (set_hps mixed_hps) sample_machine) !! "lr_policy"
                 = hyper_params sample_machine !! "lr_policy") by (by rewrite Heq).
    vm_compute in Hl. discriminate Hl.
Qed.

(** [set_hps] on known keys, at [both_hps]. *)
Lemma set_hps_known_keys_update_at_both_hps :
  result (set_hps both_hps) sample_machine = Return tt ∧
  hyper_params (after (set_hps both_hps) sample_machine) !! "lr_multiplier"
    = Some (VList [VStr "backbone"]).
Proof.
  destruct (set_hps_known_keys_update sample_machine both_hps) as (Hret & _ & Hpost).
  assert (Hall : ∀ k, k ∈ dict_keys both_hps → k ∈ dom (hyper_params sample_machine)).
  { intros k Hk. apply (bool_decide_unpack _).
    apply elem_of_cons in Hk as [->|Hk]; [vm_compute; exact I|].
    apply list_elem_of_singleton in Hk as ->. vm_compute. exact I. }
  split; [by apply Hret|].
  destruct (Hpost Hall "lr_multiplier") as [_ ->]; [|reflexivity].
  apply (bool_decide_unpack _). vm_compute. exact I.
Defined.

(** Two wrappers of the one class: what [A] sets, [B] reads. *)
Lemma set_hps_is_shared_at_policy_hps :
  result (set_hps policy_hps)
    (Machine (__init__ sample_class VNone) (snd (class_body ∅)) []) = Return tt ∧
  hyper_params (Machine (__init__ sample_class (VInt 2)) (snd (class_body ∅)) [])
    !! "lr_policy" = Some (VList []) ∧
  hyper_params
    (with_self (__init__ sample_class (VInt 2))
       (after (set_hps policy_hps)
          (Machine (__init__ sample_class VNone) (snd (class_body ∅)) [])))
    !! "lr_policy" = Some (VList [VStr "LinearLR"]).
Proof.
  assert (Hret : result (set_hps policy_hps)
                   (Machine (__init__ sample_class VNone) (snd (class_body ∅)) [])
                 = Return tt) by (vm_compute; reflexivity).
  split; [exact Hret|]. split; [reflexivity|].
  destruct (set_hps_is_shared_between_instances
              sample_class VNone (VInt 2) (snd (class_body ∅)) [] policy_hps Hret)
    as (_ & _ & Hpost).
  destruct (Hpost "lr_policy") as [_ ->]; [|reflexivity].
  apply (bool_decide_unpack _). vm_compute. exact I.
Defined.

(** [update_params] with a policy configured and no multiplier. *)
Lemma update_params_builds_at_policy_hps :
  ∃ m' evs,
    update_params (after (set_hps policy_hps) sample_machine) = (Return tt, m') ∧
    trace m' = [] ++ evs ∧
    (∃ o, (build_lr_policy (VList [VStr "LinearLR"]), Return o) ∈ evs ∧
          _state (self m') !! "lr_policy" = Some o) ∧
    _state (self m') !! "lr_multiplier" = None.
Proof.
  destruct (update_params_builds_iff_nonempty
              (after (set_hps policy_hps) sample_machine) [VStr "LinearLR"] [])
    as (m' & evs & Hrun & Htr & _ & Hp & _ & _ & Hm).
  - vm_compute. reflexivity.
  - vm_compute. reflexivity.
  - intros t. by eexists.
  - intros t. by eexists.
  - exists m', evs. split; [exact Hrun|]. split; [exact Htr|].
    split; [by apply Hp|]. by rewrite Hm.
Defined.

(** [update_params] on a fresh wrapper. *)
Lemma update_params_changes_nothing_at_sample_machine :
  update_params sample_machine = (Return tt, sample_machine).
Proof.
  apply update_params_empty_configs_change_nothing; reflexivity.
Defined.

(** Against C4 as first stated: both lists are empty, the internal state had an
    ["lr_policy"] from an earlier [update_params()], and it still has it
    after this one. *)
Lemma update_params_keeps_stale_policy :
  hyper_params machine_with_stale_policy !! "lr_policy" = Some (VList []) ∧
  hyper_params machine_with_stale_policy !! "lr_multiplier" = Some (VList []) ∧
  result update_params machine_with_stale_policy = Return tt ∧
  _state (self (after update_params machine_with_stale_policy)) !! "lr_policy"
    = Some 1%positive ∧
  "lr_policy" ∈ dom (_state (self (after update_params machine_with_stale_policy))).
Proof.
  split; [|split; [|split; [|split]]]; vm_compute; reflexivity.
Qed.

(** [build_optimizer] with and without a multiplier. *)
Lemma build_optimizer_stores_params_at_samples :
  _state (self (after build_optimizer machine_with_multiplier)) !! "params"
    = Some 2%positive ∧
  trace (after build_optimizer machine_with_multiplier)
    = trace machine_with_multiplier
      ++ [(LrMultiplier_divide_into_param_groups 1%positive (Some 5%positive),
           Return 2%positive)] ∧
  _state (self (after build_optimizer machine_with_policy)) !! "params"
    = Some 2%positive ∧
  trace (after build_optimizer machine_with_policy)
    = trace machine_with_policy ++ [(Module_parameters 5%positive, Return 2%positive)].
Proof.
  destruct (build_optimizer_stores_params machine_with_multiplier
              5%positive 2%positive eq_refl) as [Hwith _].
  destruct (Hwith 1%positive) as (_ & -> & -> & _);
    [vm_compute; reflexivity|reflexivity|].
  destruct (build_optimizer_stores_params machine_with_policy
              5%positive 2%positive eq_refl) as [_ Hwithout].
  destruct Hwithout as (_ & -> & -> & _);
    [vm_compute; reflexivity|reflexivity|].
  by rewrite !lookup_insert_eq.
Defined.

(** The three delegating methods on a wrapper whose optimizer is object 9. *)
Lemma optimizer_methods_delegate_at_sample_machine :
  result zero_grad sample_machine_with_optimizer = Return tt ∧
  trace (after zero_grad sample_machine_with_optimizer)
    = [(Optimizer_zero_grad 9%positive, Return 1%positive)] ∧
  result step sample_machine_with_optimizer = Return tt ∧
  trace (after step sample_machine_with_optimizer)
    = [(Optimizer_step 9%positive, Return 1%positive)] ∧
  state_dict sample_machine_with_optimizer
    = (Return 1%positive,
       {| self := self sample_machine_with_optimizer;
          dicts := dicts sample_machine_with_optimizer;
          trace := [(Optimizer_state_dict 9%positive, Return 1%positive)] |}).
Proof.
  destruct (optimizer_methods_delegate sample_machine_with_optimizer 9%positive eq_refl)
    as (Hz & Hs & Hd).
  unfold result, after. rewrite Hz, Hs, Hd. by repeat split.
Defined.

(** [schedule] on a fresh wrapper. *)
Lemma schedule_without_policy_and_multiplier_at_sample_machine :
  schedule 3 7 sample_machine = (Return ∅, sample_machine).
Proof.
  apply schedule_without_policy_and_multiplier;
    apply not_elem_of_dom; reflexivity.
Defined.

(** [schedule] with a policy and a multiplier stored. *)
Lemma schedule_applies_at_machine_with_both :
  ∃ info m' evp evm,
    schedule 3 7 machine_with_both = (Return info, m') ∧
    trace m' = trace machine_with_both ++ evp ++ evm ∧
    (∃ lr r, evp = [(LrPolicy_get_lr 1%positive 3 7, Return lr);
                    (schedule_lr (Some 9%positive) lr, r)] ∧
             info = {["lr" := lr]}) ∧
    (∃ r, evm = [(LrMultiplier_multiply_lr 2%positive (Some 9%positive), r)]).
Proof.
  destruct (schedule_applies_policy_and_multiplier machine_with_both 3 7)
    as (info & m' & evp & evm & Hrun & _ & _ & Htr & Hp & Hm).
  - intros t policy. by eexists.
  - intros t lr. by eexists.
  - intros t multiplier. by eexists.
  - exists info, m', evp, evm. split; [exact Hrun|]. split; [exact Htr|].
    split; [exact Hp|exact Hm].
Defined.

(** Against C6 as first stated: with a multiplier and no policy stored,
    [schedule] applies [multiply_lr] to the optimizer and returns an empty
    report: the adjustment it applied is not reflected in it. *)
Lemma schedule_report_omits_multiplier :
  _state (self machine_with_multiplier) !! "lr_multiplier" = Some 1%positive ∧
  result (schedule 3 7) machine_with_multiplier = Return ∅ ∧
  trace (after (schedule 3 7) machine_with_multiplier)
    = trace machine_with_multiplier
      ++ [(LrMultiplier_multiply_lr 1%positive (Some 9%positive), Return 2%positive)].
Proof.
  split; [|split]; vm_compute; reflexivity.
Qed.

(** The keys of the report when a policy and a multiplier are stored. *)
Lemma schedule_report_keys_at_machine_with_both :
  dom (<["lr" := 3%positive]> (∅ : gmap string Obj)) ⊆ {["lr"]} ∧
  ("lr" ∈ dom (<["lr" := 3%positive]> (∅ : gmap string Obj)) ↔
   "lr_policy" ∈ dom (_state (self machine_with_both))).
Proof.
  destruct (schedule_report_keys machine_with_both 3 7
              (<["lr" := 3%positive]> ∅) (after (schedule 3 7) machine_with_both))
    as (Hsub & Hiff & _).
  - vm_compute. reflexivity.
  - split; [exact Hsub|exact Hiff].
Defined.

End Samples.

(** ** The further theorems at sample machines *)

Section MoreSamples.


(** Both lists set, then the policy list emptied: the later call wins on
    its key and the multiplier list stays as the first call set it. *)
Lemma set_hps_twice_at_sample_machine :
  hyper_params (after (set_hps cleared_hps) (after (set_hps both_hps) sample_machine))
    !! "lr_policy" = Some (VList []) ∧
  hyper_params (after (set_hps cleared_hps) (after (set_hps both_hps) sample_machine))
    !! "lr_multiplier" = Some (VList [VStr "backbone"]).
Proof.
  assert (Hall : ∀ hps : pydict,
            (hps = both_hps ∨ hps = cleared_hps) →
            ∀ k, k ∈ dict_keys hps → k ∈ dom (hyper_params sample_machine)).
  { intros hps Hhps k Hk. apply (bool_decide_unpack _).
    destruct Hhps as [-> | ->]; apply list_elem_of_In in Hk; simpl in Hk;
      repeat (destruct Hk as [<-|Hk]; [vm_compute; exact I|]); done. }
  destruct (set_hps_twice_later_wins sample_machine both_hps cleared_hps
              (Hall _ (or_introl eq_refl)) (Hall _ (or_intror eq_refl)))
    as (_ & _ & Hlook).
  split; rewrite Hlook; reflexivity.
Defined.

(** A wrapper of the second class does not see what the first one sets. *)
Lemma set_hps_leaves_second_class_alone :
  hyper_params
    (with_self (__init__ second_class VNone)
       (after (set_hps policy_hps) two_class_machine))
  = hyper_params (with_self (__init__ second_class VNone) two_class_machine).
Proof.
  apply set_hps_leaves_other_dicts. vm_compute. discriminate.
Defined.

(** [update_params] on a dict without the key, and on a number. *)
Lemma update_params_fails_before_building_at_samples :
  update_params (collaborators := sample_externals) bare_machine
    = (Raise KeyError, bare_machine) ∧
  update_params (collaborators := sample_externals)
      (after (set_hps number_hps) sample_machine)
    = (Raise TypeError, after (set_hps number_hps) sample_machine).
Proof.
  split.
  - apply (update_params_fails_before_building (collaborators := sample_externals)).
    reflexivity.
  - apply (update_params_fails_before_building (collaborators := sample_externals))
      with (v := VInt 5); reflexivity.
Defined.

(** A policy builder that raises. *)
Lemma update_params_policy_builder_raises_at_sample :
  result (update_params (collaborators := policy_builder_failing))
    (after (set_hps both_hps) sample_machine) = Raise (OtherError "ValueError") ∧
  _state (self (after (update_params (collaborators := policy_builder_failing))
                  (after (set_hps both_hps) sample_machine))) = ∅.
Proof.
  unfold result, after.
  rewrite (update_params_policy_builder_raises
             (collaborators := policy_builder_failing)
             (set_hps both_hps sample_machine).2 [VStr "LinearLR"]
             (OtherError "ValueError")); [done| |done|done].
  vm_compute. reflexivity.
Defined.

(** A multiplier builder that raises after the policy was built. *)
Lemma update_params_multiplier_builder_raises_at_sample :
  result (update_params (collaborators := multiplier_builder_failing))
    (after (set_hps both_hps) sample_machine) = Raise (OtherError "ValueError") ∧
  _state (self (after (update_params (collaborators := multiplier_builder_failing))
                  (after (set_hps both_hps) sample_machine)))
    = <["lr_policy" := 1%positive]> ∅.
Proof.
  destruct (update_params_multiplier_builder_raises
              (collaborators := multiplier_builder_failing)
              (after (set_hps both_hps) sample_machine)
              [VStr "LinearLR"] [VStr "backbone"] 1%positive (OtherError "ValueError"))
    as (Hres & Hst & _); try done; try (vm_compute; reflexivity).
Defined.

(** A wrapper as [__init__] leaves it cannot step. *)
Lemma optimizer_methods_without_optimizer_at_sample_machine :
  zero_grad (collaborators := sample_externals) sample_machine
    = (Raise AttributeError, sample_machine) ∧
  step (collaborators := sample_externals) sample_machine
    = (Raise AttributeError, sample_machine) ∧
  state_dict (collaborators := sample_externals) sample_machine
    = (Raise AttributeError, sample_machine).
Proof.
  apply (optimizer_methods_without_optimizer (collaborators := sample_externals)).
  reflexivity.
Defined.

(** Nor can it build its parameter groups. *)
Lemma build_optimizer_without_model_at_sample_machine :
  build_optimizer (collaborators := sample_externals) sample_machine
    = (Raise AttributeError, sample_machine).
Proof.
  apply (build_optimizer_without_model (collaborators := sample_externals)).
  - reflexivity.
  - apply not_elem_of_dom. reflexivity.
Defined.

(** A policy whose [get_lr] raises, and an optimizer that [schedule_lr]
    rejects: the multiplier of [machine_with_both] is not applied. *)
Lemma schedule_failing_policy_at_machine_with_both :
  schedule (collaborators := get_lr_failing) 3 7 machine_with_both
    = (Raise (OtherError "ValueError"),
       {| self := self machine_with_both; dicts := dicts machine_with_both;
          trace := trace machine_with_both
                   ++ [(LrPolicy_get_lr 1%positive 3 7,
                        Raise (OtherError "ValueError"))] |}) ∧
  schedule (collaborators := schedule_lr_failing) 3 7 machine_with_both
    = (Raise (OtherError "ValueError"),
       {| self := self machine_with_both; dicts := dicts machine_with_both;
          trace := trace machine_with_both
                   ++ [(LrPolicy_get_lr 1%positive 3 7, Return 3%positive);
                       (schedule_lr (Some 9%positive) 3%positive,
                        Raise (OtherError "ValueError"))] |}).
Proof.
  split.
  - destruct (schedule_failing_policy_skips_the_rest
                (collaborators := get_lr_failing) machine_with_both 3 7 1%positive)
      as [Hget _]; [vm_compute; reflexivity|].
    apply Hget. reflexivity.
  - destruct (schedule_failing_policy_skips_the_rest
                (collaborators := schedule_lr_failing) machine_with_both 3 7 1%positive)
      as [_ Hsched]; [vm_compute; reflexivity|].
    apply (Hsched 3%positive); reflexivity.
Defined.

(** From [set_hps] to the report of [schedule]. *)
Lemma configured_policy_is_reported_at_policy_hps :
  ∃ policy lr r,
    extern (Externals := sample_externals)
      (trace (after (set_hps policy_hps) sample_machine_with_optimizer))
      (build_lr_policy (VList [VStr "LinearLR"])) = Return policy ∧
    _state (self machine_with_policy) !! "lr_policy" = Some policy ∧
    result (schedule (collaborators := sample_externals) 3 7) machine_with_policy
      = Return {["lr" := lr]} ∧
    (LrPolicy_get_lr policy 3 7, Return lr)
      ∈ trace (after (schedule (collaborators := sample_externals) 3 7)
                 machine_with_policy) ∧
    (schedule_lr (Some 9%positive) lr, r)
      ∈ trace (after (schedule (collaborators := sample_externals) 3 7)
                 machine_with_policy).
Proof.
  apply (configured_policy_is_reported (collaborators := sample_externals)
           (after (set_hps policy_hps) sample_machine_with_optimizer)
           [VStr "LinearLR"] 3 7).
  - vm_compute. reflexivity.
  - done.
  - intros t c. by eexists.
Defined.

(** From [set_hps] to the parameter groups of [build_optimizer]. *)
Lemma configured_multiplier_groups_params_at_multiplier_hps :
  ∃ multiplier params,
    (build_lr_multiplier (VList [VStr "backbone"]), Return multiplier)
      ∈ trace machine_with_multiplier ∧
    result (build_optimizer (collaborators := sample_externals))
      machine_with_multiplier = Return tt ∧
    (LrMultiplier_divide_into_param_groups multiplier (Some 5%positive), Return params)
      ∈ trace (after (build_optimizer (collaborators := sample_externals))
                 machine_with_multiplier) ∧
    _state (self (after (build_optimizer (collaborators := sample_externals))
                    machine_with_multiplier)) !! "params" = Some params.
Proof.
  apply (configured_multiplier_groups_params (collaborators := sample_externals)
           (after (set_hps multiplier_hps) sample_machine_with_optimizer)
           [] [VStr "backbone"]).
  - vm_compute. reflexivity.
  - vm_compute. reflexivity.
  - done.
  - intros t c. by eexists.
Defined.

(** Two calls of [update_params], two policies. *)
Lemma update_params_again_rebuilds_at_policy_hps :
  ∃ first second,
    extern (Externals := sample_externals)
      (trace (after (set_hps policy_hps) sample_machine))
      (build_lr_policy (VList [VStr "LinearLR"])) = Return first ∧
    _state (self (after (update_params (collaborators := sample_externals))
                    (after (set_hps policy_hps) sample_machine)))
      !! "lr_policy" = Some first ∧
    extern (Externals := sample_externals)
      (trace (after (update_params (collaborators := sample_externals))
                (after (set_hps policy_hps) sample_machine)))
      (build_lr_policy (VList [VStr "LinearLR"])) = Return second ∧
    _state (self (after (update_params (collaborators := sample_externals))
                    (after (update_params (collaborators := sample_externals))
                       (after (set_hps policy_hps) sample_machine))))
      !! "lr_policy" = Some second.
Proof.
  apply (update_params_again_rebuilds (collaborators := sample_externals)
           (after (set_hps policy_hps) sample_machine) [VStr "LinearLR"]).
  - vm_compute. reflexivity.
  - done.
  - intros t c. by eexists.
Defined.

End MoreSamples.
